(** * The Reddit bridge forwarder ([api/reddit-mcp.ts])

    A shallow embedding of the single request handler of the repository
    (the [handler] function of [api/reddit-mcp.ts]; the second copy of the
    file exports the same body as the [fetch] method of its default
    object), together with the part of the JavaScript runtime the handler
    relies on: values, [typeof], property reads, [JSON.stringify],
    [process.env], [fetch] and [Response]. *)

From Stdlib Require Import ZArith String Ascii List Bool Lia.
From stdpp Require Import base option list strings pretty gmap.
Import ListNotations.

Set Warnings "-register-all".

Local Open Scope string_scope.
Local Open Scope Z_scope.

(** ** JavaScript values *)

Section Values.

(** The numbers of the engine (IEEE doubles). The handler never computes
    with a number: it copies them and hands them to [JSON.stringify]. *)
Context {number : Type}.

(** The values that reach the handler: what [JSON.parse] builds, the
    [undefined] a missing property reads as, and the [Error] instances the
    runtime throws. An object is its own enumerable properties in
    enumeration order. *)
Inductive JSValue : Type :=
| JUndefined
| JNull
| JBool (b : bool)
| JNum (n : number)
| JStr (s : string)
| JArr (items : list JSValue)
| JObj (props : list (string * JSValue))
| JError (message : string).

(** [typeof v]. *)
Definition typeof (v : JSValue) : string :=
  match v with
  | JUndefined => "undefined"
  | JBool _ => "boolean"
  | JNum _ => "number"
  | JStr _ => "string"
  | JNull | JArr _ | JObj _ | JError _ => "object"
  end.

(** The value of the own property [k] of an object, [undefined] when it has
    none. *)
Fixpoint own_property (props : list (string * JSValue)) (k : string) : JSValue :=
  match props with
  | [] => JUndefined
  | (k', v) :: rest => if String.eqb k' k then v else own_property rest k
  end.

(** A completion: a value, or the value thrown. *)
Inductive Result (A : Type) : Type :=
| Ok (a : A)
| Throw (e : JSValue).

End Values.

Arguments JSValue : clear implicits.
Arguments Result : clear implicits.
Arguments Ok {number A} a.
Arguments Throw {number A} e.

(** The property names the handler reads. None of them is an array index,
    [length], or a member of a built-in prototype, so on an array, a string,
    a number or a boolean each of them reads as [undefined]. *)
Inductive PropertyKey : Type :=
| K_subreddit | K_query | K_size | K_before | K_after | K_message.

Definition key_name (k : PropertyKey) : string :=
  match k with
  | K_subreddit => "subreddit"
  | K_query => "query"
  | K_size => "size"
  | K_before => "before"
  | K_after => "after"
  | K_message => "message"
  end.

(** ** [JSON.stringify]

    Strings are kept as UTF-8 text, so every escape of QuoteJSONString
    concerns an ASCII character. *)

Definition dquote : string := String "034" "".
Definition backslash : string := String "092" "".
Definition newline : string := String "010" "".

Definition hex_digit (n : N) : ascii :=
  ascii_of_N (if (n <? 10)%N then 48 + n else 87 + n).

(** One code unit of a JSON string literal, escaped as QuoteJSONString does:
    the two-character escapes, [\u00xx] for the other control characters,
    the character itself otherwise. *)
Definition quote_char (c : ascii) : string :=
  let n := N_of_ascii c in
  if (n =? 8)%N then backslash ++ "b"
  else if (n =? 9)%N then backslash ++ "t"
  else if (n =? 10)%N then backslash ++ "n"
  else if (n =? 12)%N then backslash ++ "f"
  else if (n =? 13)%N then backslash ++ "r"
  else if (n =? 34)%N then backslash ++ dquote
  else if (n =? 92)%N then backslash ++ backslash
  else if (n <? 32)%N then
    backslash ++ "u00" ++ String (hex_digit (n / 16)) (String (hex_digit (n mod 16)) "")
  else String c "".

Fixpoint quote_chars (s : string) : string :=
  match s with
  | EmptyString => ""
  | String c rest => quote_char c ++ quote_chars rest
  end.

Definition QuoteJSONString (s : string) : string :=
  dquote ++ quote_chars s ++ dquote.

(** [separator.join(parts)]. *)
Fixpoint join (separator : string) (parts : list string) : string :=
  match parts with
  | [] => ""
  | [p] => p
  | p :: rest => p ++ separator ++ join separator rest
  end.

(** The text of a non-empty array or object between its brackets: on one
    line when the gap is empty, one indented line per part otherwise. *)
Definition bracketed (opening closing gap stepback indent : string)
    (partial : list string) : string :=
  match partial with
  | [] => opening ++ closing
  | _ =>
      if String.eqb gap "" then opening ++ join "," partial ++ closing
      else
        opening ++ newline ++ indent
          ++ join ("," ++ newline ++ indent) partial
          ++ newline ++ stepback ++ closing
  end.

Section Stringify.

Context {number : Type}.

(** What [JSON.stringify] prints for a number: [Number::toString] of a
    finite number, [null] for the others. *)
Variable number_json : number -> string.

(** SerializeJSONProperty: [None] is the [undefined] result. An array
    prints [null] for an element without a serialization; an object leaves
    out a property without one. An [Error] has no enumerable property. *)
Fixpoint SerializeJSONProperty (gap indent : string) (v : JSValue number)
    : option string :=
  match v with
  | JUndefined => None
  | JNull => Some "null"
  | JBool true => Some "true"
  | JBool false => Some "false"
  | JNum n => Some (number_json n)
  | JStr s => Some (QuoteJSONString s)
  | JArr items =>
      let stepback := indent in
      let indent := indent ++ gap in
      let partial :=
        map (fun item =>
               match SerializeJSONProperty gap indent item with
               | Some text => text
               | None => "null"
               end) items in
      Some (bracketed "[" "]" gap stepback indent partial)
  | JObj props =>
      let stepback := indent in
      let indent := indent ++ gap in
      let partial :=
        flat_map (fun '(k, item) =>
               match SerializeJSONProperty gap indent item with
               | Some text =>
                   [QuoteJSONString k ++ ":"
                      ++ (if String.eqb gap "" then "" else " ") ++ text]
               | None => []
               end) props in
      Some (bracketed "{" "}" gap stepback indent partial)
  | JError _ => Some "{}"
  end.

(** [JSON.stringify(value)] and [JSON.stringify(value, null, space)] for a
    count of spaces. *)
Definition JSON_stringify (value : JSValue number) (space : nat) : option string :=
  SerializeJSONProperty (String.concat "" (repeat " " (Nat.min space 10))) "" value.

End Stringify.

(** ** Requests, responses and the runtime *)

(** The [init] argument of [fetch] and the outbound call it makes. *)
Record RequestInit : Type := {
  init_method : string;
  init_headers : gmap string string;
  init_body : option string
}.

Record FetchCall : Type := {
  call_url : string;
  call_init : RequestInit
}.

(** The [Response] the handler returns. *)
Record Response : Type := {
  resp_status : Z;
  resp_headers : gmap string string;
  resp_body : option string
}.

(** What lies outside the handler: the process environment, and the log of
    the outbound network calls made so far. *)
Record World : Type := {
  process_env : gmap string string;
  outbound : list FetchCall
}.

Section Runtime.

Context {number : Type}.

(** The inbound [Request] as the handler reads it: its method, its headers
    keyed by lower-case name ([request.headers.get]), and the completion of
    [request.json()]. *)
Record Request : Type := {
  req_method : string;
  req_headers : gmap string string;
  req_json : Result number (JSValue number)
}.

(** The upstream [Response] as the handler reads it: [status], [ok] and the
    completion of [text()]. *)
Record Upstream : Type := {
  up_status : number;
  up_ok : bool;
  up_text : Result number string
}.

(** The engine and the network: how a number prints in JSON, [JSON.parse],
    the completion of a [fetch], and the message of the [TypeError] thrown
    on reading a property of [null] or [undefined]. *)
Record Runtime : Type := {
  number_json : number -> string;
  JSON_parse : string -> Result number (JSValue number);
  fetch_completion : string -> RequestInit -> Result number Upstream;
  cannot_read_message : JSValue number -> PropertyKey -> string
}.

End Runtime.

Arguments Request : clear implicits.
Arguments Upstream : clear implicits.
Arguments Runtime : clear implicits.

(** ** Effects: state of the world and exceptions *)

Definition M (number A : Type) : Type := World -> Result number A * World.

Definition ret {number A} (a : A) : M number A := fun w => (Ok a, w).

Definition bind {number A B} (c : M number A) (k : A -> M number B) : M number B :=
  fun w =>
    match c w with
    | (Ok a, w') => k a w'
    | (Throw e, w') => (Throw e, w')
    end.

(** [try { c } catch (err) { h err }]. *)
Definition try_catch {number A} (c : M number A) (h : JSValue number -> M number A)
    : M number A :=
  fun w =>
    match c w with
    | (Ok a, w') => (Ok a, w')
    | (Throw e, w') => h e w'
    end.

(** A completion the runtime hands over, as a computation. *)
Definition completion {number A} (r : Result number A) : M number A :=
  fun w => (r, w).

Notation "'let*' x ':=' c 'in' k" := (bind c (fun x => k))
  (at level 10, x name, c at level 100, k at level 200).

(** [process.env[name]]. *)
Definition getenv {number} (name : string) : M number (option string) :=
  fun w => (Ok (process_env w !! name), w).

(** The truthiness of a string that may be [undefined] or [null]. *)
Definition truthy (s : option string) : bool :=
  match s with
  | Some s => negb (String.eqb s "")
  | None => false
  end.

(** [header === s] for a header that is a string or [null]. *)
Definition strict_equal (header : option string) (s : string) : bool :=
  match header with
  | Some h => String.eqb h s
  | None => false
  end.

(** The wrapper authentication test:
    [wrapperKey && (!header || header !== wrapperKey)]. *)
Definition unauthorised (wrapperKey header : option string) : bool :=
  match wrapperKey with
  | None | Some EmptyString => false
  | Some wrapperKey => negb (truthy header) || negb (strict_equal header wrapperKey)
  end.

(** ** The handler *)

Section Forwarder.

Context {number : Type} (rt : Runtime number).

#[local] Abbreviation Value := (JSValue number).

(** [v.k] for one of the names the handler reads. *)
Definition get (v : Value) (k : PropertyKey) : Result number Value :=
  match v with
  | JUndefined | JNull => Throw (JError (cannot_read_message rt v k))
  | JObj props => Ok (own_property props (key_name k))
  | JError message =>
      Ok (match k with K_message => JStr message | _ => JUndefined end)
  | JBool _ | JNum _ | JStr _ | JArr _ => Ok JUndefined
  end.

(** [v?.k]. *)
Definition optional_get (v : Value) (k : PropertyKey) : Result number Value :=
  match v with
  | JUndefined | JNull => Ok JUndefined
  | _ => get v k
  end.

(** [a || b] on computations. *)
Definition or_else (a b : M number bool) : M number bool :=
  let* x := a in if x then ret true else b.

(** [fetch(url, init)]: the call is logged, the runtime completes it. *)
Definition fetch (url : string) (init : RequestInit) : M number (Upstream number) :=
  fun w =>
    (fetch_completion rt url init,
     {| process_env := process_env w;
        outbound := outbound w ++ [{| call_url := url; call_init := init |}] |}).

(** The shared response constructor [json(data, status)]. *)
Definition json (data : Value) (status : Z) : Response :=
  {| resp_status := status;
     resp_headers := {[ "content-type" := "application/json" ]};
     resp_body := JSON_stringify (number_json rt) data 2 |}.

(** Lines 57 to 109: the payload, the upstream call and the relay of its
    answer. *)
Definition forward (bridgeUrl : string) (body : Value) : M number Response :=
  let* subreddit := completion (get body K_subreddit) in
  let* query := completion (get body K_query) in
  let* size := completion (get body K_size) in
  let* before := completion (get body K_before) in
  let* after := completion (get body K_after) in
  let payload :=
    JObj [("subreddit", subreddit); ("query", query); ("size", size);
          ("before", before); ("after", after)] in
  let* bypassSecret := getenv "REDDIT_BRIDGE_BYPASS_SECRET" in
  let headers : gmap string string := {[ "content-type" := "application/json" ]} in
  let headers :=
    match bypassSecret with
    | None | Some EmptyString => headers
    | Some bypassSecret => <[ "x-vercel-protection-bypass" := bypassSecret ]> headers
    end in
  let* upstream :=
    fetch bridgeUrl
      {| init_method := "POST";
         init_headers := headers;
         init_body := JSON_stringify (number_json rt) payload 0 |} in
  let* text := completion (up_text upstream) in
  let data :=
    match JSON_parse rt text with
    | Ok parsed => parsed
    | Throw _ => JStr text
    end in
  if negb (up_ok upstream) then
    ret (json (JObj [("error", JStr "Upstream bridge error.");
                     ("status", JNum (up_status upstream));
                     ("detail", data)]) 502)
  else
    ret (json (JObj [("ok", JBool true);
                     ("bridge_status", JNum (up_status upstream));
                     ("bridge_url", JStr bridgeUrl);
                     ("data", data)]) 200).

(** The body of the outer [try]: lines 13 to 55, then [forward]. *)
Definition handler_try (request : Request number) : M number Response :=
  if negb (String.eqb (req_method request) "POST") then
    ret (json (JObj [("error", JStr "Method not allowed. Use POST.")]) 405)
  else
  let* wrapperKey := getenv "MCP_WRAPPER_KEY" in
  if unauthorised wrapperKey (req_headers request !! "x-mcp-key") then
    ret (json (JObj [("error", JStr "Unauthorised.")]) 401)
  else
  let* bridgeUrl := getenv "REDDIT_BRIDGE_URL" in
  match bridgeUrl with
  | None | Some EmptyString =>
      ret (json (JObj [("error", JStr "Server misconfigured: REDDIT_BRIDGE_URL not set.")]) 500)
  | Some bridgeUrl =>
  match req_json request with
  | Throw _ =>
      ret (json (JObj [("error", JStr "Request body must be valid JSON.")]) 400)
  | Ok body =>
  let* invalid :=
    or_else
      (let* subreddit := completion (get body K_subreddit) in
       ret (negb (String.eqb (typeof subreddit) "string")))
      (let* query := completion (get body K_query) in
       ret (negb (String.eqb (typeof query) "string"))) in
  if invalid then
    ret (json (JObj [("error",
                      JStr "Body must include string fields 'subreddit' and 'query'.")]) 400)
  else
    forward bridgeUrl body
  end
  end.

(** The [catch (err)] clause of the handler. *)
Definition handler_catch (err : Value) : M number Response :=
  let* message := completion (optional_get err K_message) in
  if String.eqb (typeof message) "string" then
    let* detail := completion (get err K_message) in
    ret (json (JObj [("error", JStr "Unexpected server error.");
                     ("detail", detail)]) 500)
  else
    ret (json (JObj [("error", JStr "Unexpected server error.");
                     ("detail", JStr "Unknown error")]) 500).

(** [handler(request)], and the [fetch(request)] method of the second copy. *)
Definition handler (request : Request number) : M number Response :=
  try_catch (handler_try request) handler_catch.

End Forwarder.

(** ** The vocabulary of the specification *)

Section Specification.

Context {number : Type} (rt : Runtime number).

#[local] Abbreviation Value := (JSValue number).

(** What [body.k] reads as, for a body on which the read does not throw. *)
Definition field (body : Value) (k : PropertyKey) : Value :=
  match get rt body k with
  | Ok v => v
  | Throw _ => JUndefined
  end.

(** The payload that copies the five fields of the parsed body. *)
Definition payload_keys : list PropertyKey :=
  [K_subreddit; K_query; K_size; K_before; K_after].

Definition payload_props (body : Value) : list (string * Value) :=
  map (fun k => (key_name k, field body k)) payload_keys.

Definition forwarded_payload (body : Value) : Value :=
  JObj (payload_props body).

(** The properties of an object whose value is not [undefined]. *)
Definition defined_props (props : list (string * Value)) : list (string * Value) :=
  List.filter (fun kv => negb (String.eqb (typeof (snd kv)) "undefined")) props.

(** A variable of the environment is configured when it is set to a
    non-empty string. *)
Definition configured (env : gmap string string) (name value : string) : Prop :=
  env !! name = Some value /\ value <> "".

Definition unconfigured (env : gmap string string) (name : string) : Prop :=
  env !! name = None \/ env !! name = Some "".

(** The request passes the method, authentication and configuration steps,
    with [bridgeUrl] the configured upstream URL. *)
Definition reaches_body (w : World) (request : Request number) (bridgeUrl : string) : Prop :=
  req_method request = "POST"
  /\ unauthorised (process_env w !! "MCP_WRAPPER_KEY")
                  (req_headers request !! "x-mcp-key") = false
  /\ configured (process_env w) "REDDIT_BRIDGE_URL" bridgeUrl.

(** A valid request: it reaches the body, which parses to a value whose
    [subreddit] and [query] are strings. *)
Definition valid_request (w : World) (request : Request number)
    (bridgeUrl : string) (body : Value) : Prop :=
  reaches_body w request bridgeUrl
  /\ req_json request = Ok body
  /\ (exists subreddit, get rt body K_subreddit = Ok (JStr subreddit))
  /\ (exists query, get rt body K_query = Ok (JStr query)).

(** The headers and the [init] of the upstream call of a valid request. *)
Definition bridge_headers (env : gmap string string) : gmap string string :=
  match env !! "REDDIT_BRIDGE_BYPASS_SECRET" with
  | None | Some EmptyString => {[ "content-type" := "application/json" ]}
  | Some secret =>
      <[ "x-vercel-protection-bypass" := secret ]> {[ "content-type" := "application/json" ]}
  end.

Definition bridge_init (w : World) (body : Value) : RequestInit :=
  {| init_method := "POST";
     init_headers := bridge_headers (process_env w);
     init_body := JSON_stringify (number_json rt) (forwarded_payload body) 0 |}.

(** The world once the upstream call of a valid request has been made. *)
Definition sent (w : World) (bridgeUrl : string) (body : Value) : World :=
  {| process_env := process_env w;
     outbound := outbound w
                   ++ [{| call_url := bridgeUrl; call_init := bridge_init w body |}] |}.

(** The world with another process environment. *)
Definition with_env (env : gmap string string) (w : World) : World :=
  {| process_env := env; outbound := outbound w |}.

(** The upstream body parsed as JSON when it parses, the raw text otherwise. *)
Definition upstream_data (text : string) : Value :=
  match JSON_parse rt text with
  | Ok parsed => parsed
  | Throw _ => JStr text
  end.

(** The message of a thrown value when it is a string, [Unknown error]
    otherwise. *)
Definition error_detail (err : Value) : string :=
  match err with
  | JError message => message
  | JObj props =>
      match own_property props "message" with
      | JStr message => message
      | _ => "Unknown error"
      end
  | _ => "Unknown error"
  end.

(** The outcome objects. *)
Definition error_object (message : string) : Value :=
  JObj [("error", JStr message)].

Definition unexpected_object (detail : string) : Value :=
  JObj [("error", JStr "Unexpected server error."); ("detail", JStr detail)].

Definition upstream_error_object (status : number) (detail : Value) : Value :=
  JObj [("error", JStr "Upstream bridge error."); ("status", JNum status);
        ("detail", detail)].

Definition success_object (status : number) (bridgeUrl : string) (data : Value) : Value :=
  JObj [("ok", JBool true); ("bridge_status", JNum status);
        ("bridge_url", JStr bridgeUrl); ("data", data)].

(** The ways an invocation of [forward] on a valid request ends. *)
Inductive forward_path (w : World) (bridgeUrl : string) (body : Value)
    : Result number Response * World -> Prop :=
| forward_fetch_fault err :
    fetch_completion rt bridgeUrl (bridge_init w body) = Throw err ->
    forward_path w bridgeUrl body
      (Ok (json rt (unexpected_object (error_detail err)) 500), sent w bridgeUrl body)
| forward_text_fault upstream err :
    fetch_completion rt bridgeUrl (bridge_init w body) = Ok upstream ->
    up_text upstream = Throw err ->
    forward_path w bridgeUrl body
      (Ok (json rt (unexpected_object (error_detail err)) 500), sent w bridgeUrl body)
| forward_not_ok upstream text :
    fetch_completion rt bridgeUrl (bridge_init w body) = Ok upstream ->
    up_text upstream = Ok text ->
    up_ok upstream = false ->
    forward_path w bridgeUrl body
      (Ok (json rt (upstream_error_object (up_status upstream) (upstream_data text)) 502),
       sent w bridgeUrl body)
| forward_ok upstream text :
    fetch_completion rt bridgeUrl (bridge_init w body) = Ok upstream ->
    up_text upstream = Ok text ->
    up_ok upstream = true ->
    forward_path w bridgeUrl body
      (Ok (json rt (success_object (up_status upstream) bridgeUrl (upstream_data text)) 200),
       sent w bridgeUrl body).

(** The ways an invocation of the handler ends. *)
Inductive handler_path (w : World) (request : Request number)
    : Result number Response * World -> Prop :=
| path_method :
    req_method request <> "POST" ->
    handler_path w request
      (Ok (json rt (error_object "Method not allowed. Use POST.") 405), w)
| path_auth :
    req_method request = "POST" ->
    unauthorised (process_env w !! "MCP_WRAPPER_KEY")
                 (req_headers request !! "x-mcp-key") = true ->
    handler_path w request (Ok (json rt (error_object "Unauthorised.") 401), w)
| path_config :
    req_method request = "POST" ->
    unauthorised (process_env w !! "MCP_WRAPPER_KEY")
                 (req_headers request !! "x-mcp-key") = false ->
    unconfigured (process_env w) "REDDIT_BRIDGE_URL" ->
    handler_path w request
      (Ok (json rt (error_object "Server misconfigured: REDDIT_BRIDGE_URL not set.") 500), w)
| path_parse bridgeUrl err :
    reaches_body w request bridgeUrl ->
    req_json request = Throw err ->
    handler_path w request
      (Ok (json rt (error_object "Request body must be valid JSON.") 400), w)
| path_nullish bridgeUrl body :
    reaches_body w request bridgeUrl ->
    req_json request = Ok body ->
    body = JNull \/ body = JUndefined ->
    handler_path w request
      (Ok (json rt (unexpected_object (cannot_read_message rt body K_subreddit)) 500), w)
| path_fields bridgeUrl body :
    reaches_body w request bridgeUrl ->
    req_json request = Ok body ->
    body <> JNull -> body <> JUndefined ->
    typeof (field body K_subreddit) <> "string"
      \/ typeof (field body K_query) <> "string" ->
    handler_path w request
      (Ok (json rt (error_object "Body must include string fields 'subreddit' and 'query'.")
             400), w)
| path_forward bridgeUrl body outcome :
    valid_request w request bridgeUrl body ->
    forward_path w bridgeUrl body outcome ->
    handler_path w request outcome.

End Specification.

(** ** A sample deployment

    A runtime over integer numbers, used for the examples: its upstream
    answers at two URLs and is unreachable elsewhere, and its [JSON.parse]
    is given on the two bodies that upstream answers with. *)

Definition sample_text : string := "{" ++ dquote ++ "comments" ++ dquote ++ ": []}".

Definition sample_url : string := "https://bridge.example/api/search".

Definition sample_down_url : string := "https://bridge.example/down".

Definition sample_runtime : Runtime Z := {|
  number_json := fun n => pretty n;
  JSON_parse := fun text =>
    if String.eqb text sample_text
    then Ok (JObj [("comments", JArr [])])
    else Throw (JError "Unexpected token in JSON");
  fetch_completion := fun url _ =>
    if String.eqb url sample_url
    then Ok {| up_status := 200; up_ok := true; up_text := Ok sample_text |}
    else if String.eqb url sample_down_url
    then Ok {| up_status := 503; up_ok := false; up_text := Ok "Service Unavailable" |}
    else Throw (JError "fetch failed");
  cannot_read_message := fun v k =>
    "Cannot read properties of "
      ++ match v with JNull => "null" | _ => "undefined" end
      ++ " (reading '" ++ key_name k ++ "')"
|}.

Definition world_of (env : gmap string string) : World :=
  {| process_env := env; outbound := [] |}.

(** Only the upstream URL is set. *)
Definition open_env : gmap string string :=
  {[ "REDDIT_BRIDGE_URL" := sample_url ]}.

(** The upstream URL, a wrapper key and a bypass secret are set. *)
Definition guarded_env : gmap string string :=
  <[ "MCP_WRAPPER_KEY" := "s3cret" ]>
    (<[ "REDDIT_BRIDGE_BYPASS_SECRET" := "bypass-token" ]> open_env).

(** The upstream URL points at a host that cannot be reached. *)
Definition unreachable_env : gmap string string :=
  {[ "REDDIT_BRIDGE_URL" := "https://nowhere.example/" ]}.

(** The upstream URL points at the failing endpoint. *)
Definition down_env : gmap string string :=
  {[ "REDDIT_BRIDGE_URL" := sample_down_url ]}.

(** The three variables are set to the empty string. *)
Definition blank_env : gmap string string :=
  <[ "MCP_WRAPPER_KEY" := "" ]>
    (<[ "REDDIT_BRIDGE_BYPASS_SECRET" := "" ]> {[ "REDDIT_BRIDGE_URL" := "" ]}).

(** The upstream URL is set, and one optional variable is the empty string. *)
Definition blank_key_env : gmap string string :=
  <[ "MCP_WRAPPER_KEY" := "" ]> open_env.

Definition blank_bypass_env : gmap string string :=
  <[ "REDDIT_BRIDGE_BYPASS_SECRET" := "" ]> open_env.

Definition post (headers : gmap string string) (body : JSValue Z) : Request Z :=
  {| req_method := "POST"; req_headers := headers; req_json := Ok body |}.

Definition sample_body : JSValue Z :=
  JObj [("subreddit", JStr "test"); ("query", JStr "foo")].

Definition sample_body_extra : JSValue Z :=
  JObj [("subreddit", JStr "test"); ("note", JStr "private"); ("query", JStr "foo")].

Definition get_request : Request Z :=
  {| req_method := "GET";
     req_headers := ∅;
     req_json := Throw (JError "Unexpected end of JSON input") |}.


(** ** Statuses and members *)

(** The invocation is answered with the given status. *)
Definition answered {number : Type} (rt : Runtime number) (w : World)
    (request : Request number) (status : Z) : Prop :=
  exists response w',
    handler rt request w = (Ok response, w') /\ resp_status response = status.

(** What is thrown inside the [try]: the [TypeError] of reading a field of
    a [null] body, the rejection of [fetch], the rejection of the body
    read. *)
Inductive thrown {number : Type} (rt : Runtime number) (w : World)
    (request : Request number) : JSValue number -> Prop :=
| thrown_null_body bridgeUrl body :
    reaches_body w request bridgeUrl ->
    req_json request = Ok body ->
    body = JNull \/ body = JUndefined ->
    thrown rt w request (JError (cannot_read_message rt body K_subreddit))
| thrown_fetch bridgeUrl body err :
    valid_request rt w request bridgeUrl body ->
    fetch_completion rt bridgeUrl (bridge_init rt w body) = Throw err ->
    thrown rt w request err
| thrown_text bridgeUrl body upstream err :
    valid_request rt w request bridgeUrl body ->
    fetch_completion rt bridgeUrl (bridge_init rt w body) = Ok upstream ->
    up_text upstream = Throw err ->
    thrown rt w request err.

(** The terminal outcomes of an invocation, each with its status and the
    object handed to [json]: method, authentication, configuration, parse
    and validation failures, the two relays of the upstream answer, and the
    catch-all for what is thrown on the way. *)
Inductive terminal_outcome {number : Type} (rt : Runtime number) (w : World)
    (request : Request number) : Z -> JSValue number -> Prop :=
| outcome_method :
    req_method request <> "POST" ->
    terminal_outcome rt w request 405
      (JObj [("error", JStr "Method not allowed. Use POST.")])
| outcome_auth :
    req_method request = "POST" ->
    unauthorised (process_env w !! "MCP_WRAPPER_KEY")
                 (req_headers request !! "x-mcp-key") = true ->
    terminal_outcome rt w request 401 (JObj [("error", JStr "Unauthorised.")])
| outcome_config :
    req_method request = "POST" ->
    unauthorised (process_env w !! "MCP_WRAPPER_KEY")
                 (req_headers request !! "x-mcp-key") = false ->
    unconfigured (process_env w) "REDDIT_BRIDGE_URL" ->
    terminal_outcome rt w request 500
      (JObj [("error", JStr "Server misconfigured: REDDIT_BRIDGE_URL not set.")])
| outcome_parse bridgeUrl err :
    reaches_body w request bridgeUrl ->
    req_json request = Throw err ->
    terminal_outcome rt w request 400
      (JObj [("error", JStr "Request body must be valid JSON.")])
| outcome_validation bridgeUrl body :
    reaches_body w request bridgeUrl ->
    req_json request = Ok body ->
    body <> JNull -> body <> JUndefined ->
    typeof (field rt body K_subreddit) <> "string"
      \/ typeof (field rt body K_query) <> "string" ->
    terminal_outcome rt w request 400
      (JObj [("error", JStr "Body must include string fields 'subreddit' and 'query'.")])
| outcome_upstream_error bridgeUrl body upstream text :
    valid_request rt w request bridgeUrl body ->
    fetch_completion rt bridgeUrl (bridge_init rt w body) = Ok upstream ->
    up_text upstream = Ok text ->
    up_ok upstream = false ->
    terminal_outcome rt w request 502
      (JObj [("error", JStr "Upstream bridge error.");
             ("status", JNum (up_status upstream));
             ("detail", upstream_data rt text)])
| outcome_success bridgeUrl body upstream text :
    valid_request rt w request bridgeUrl body ->
    fetch_completion rt bridgeUrl (bridge_init rt w body) = Ok upstream ->
    up_text upstream = Ok text ->
    up_ok upstream = true ->
    terminal_outcome rt w request 200
      (JObj [("ok", JBool true);
             ("bridge_status", JNum (up_status upstream));
             ("bridge_url", JStr bridgeUrl);
             ("data", upstream_data rt text)])
| outcome_catch_all err :
    thrown rt w request err ->
    terminal_outcome rt w request 500
      (JObj [("error", JStr "Unexpected server error.");
             ("detail", JStr (error_detail err))]).

(** The member [k: text] of a serialized object without indentation. *)
Definition member (k text : string) : string :=
  QuoteJSONString k ++ ":" ++ text.

(** ** Properties of the values and of [JSON.stringify] *)

Section ValueFacts.

Context {number : Type} (rt : Runtime number).

#[local] Abbreviation Value := (JSValue number).

Lemma typeof_undefined (v : Value) :
  String.eqb (typeof v) "undefined" = true <-> v = JUndefined.
Proof.
  destruct v; simpl; split; intro H; congruence.
Qed.

Lemma typeof_string (v : Value) :
  typeof v = "string" <-> exists s, v = JStr s.
Proof.
  destruct v; simpl; split; intro H; try discriminate; eauto;
    destruct H as [s H]; discriminate.
Qed.

(** An object serializes as the object of its defined properties. *)
Lemma serialize_defined_props (nj : number -> string) gap indent
    (props : list (string * Value)) :
  SerializeJSONProperty nj gap indent (JObj props)
  = SerializeJSONProperty nj gap indent (JObj (defined_props props)).
Proof.
  simpl. do 2 f_equal.
  induction props as [|[k v] props IH]; simpl; [reflexivity|].
  destruct (String.eqb (typeof v) "undefined") eqn:Hu; simpl.
  - apply typeof_undefined in Hu. subst v. simpl. exact IH.
  - rewrite IH. reflexivity.
Qed.

(** The payload of a body with no optional field, and an error object as
    [json] prints it. *)
Example stringify_payload :
  JSON_stringify (fun n : Z => pretty n)
    (JObj [("subreddit", JStr "test"); ("query", JStr "foo"); ("size", JNum 25);
           ("before", JUndefined); ("after", JUndefined)]) 0
  = Some ("{" ++ dquote ++ "subreddit" ++ dquote ++ ":" ++ dquote ++ "test" ++ dquote
          ++ "," ++ dquote ++ "query" ++ dquote ++ ":" ++ dquote ++ "foo" ++ dquote
          ++ "," ++ dquote ++ "size" ++ dquote ++ ":25}").
Proof. vm_compute. reflexivity. Qed.

Example stringify_error :
  JSON_stringify (fun n : Z => pretty n) (JObj [("error", JStr "Unauthorised.")]) 2
  = Some ("{" ++ newline ++ "  " ++ dquote ++ "error" ++ dquote ++ ": "
          ++ dquote ++ "Unauthorised." ++ dquote ++ newline ++ "}").
Proof. vm_compute. reflexivity. Qed.

(** An object always has a serialization. *)
Lemma stringify_object (nj : number -> string) (props : list (string * Value)) space :
  is_Some (JSON_stringify nj (JObj props) space).
Proof. unfold JSON_stringify. simpl. eauto. Qed.

(** Reading a property throws on [null] and [undefined] only. *)
Lemma get_field (body : Value) k :
  body <> JNull -> body <> JUndefined -> get rt body k = Ok (field rt body k).
Proof.
  intros Hn Hu. unfold field. destruct body; simpl; congruence.
Qed.

Lemma get_nullish (body : Value) k :
  body = JNull \/ body = JUndefined ->
  get rt body k = Throw (JError (cannot_read_message rt body k)).
Proof. intros [-> | ->]; reflexivity. Qed.

Lemma get_ok_not_nullish (body v : Value) k :
  get rt body k = Ok v -> body <> JNull /\ body <> JUndefined.
Proof. destruct body; simpl; intro H; split; congruence. Qed.

(** The catch clause answers 500 and leaves the world as it is. *)
Lemma handler_catch_ok (err : Value) (w : World) :
  handler_catch rt err w
  = (Ok (json rt (unexpected_object (error_detail err)) 500), w).
Proof.
  unfold handler_catch, bind, completion, ret, unexpected_object.
  destruct err as [| | | | | |props|message]; simpl; try reflexivity.
  destruct (own_property props "message"); reflexivity.
Qed.

End ValueFacts.

(** ** The paths of the handler *)

Section Paths.

Context {number : Type} (rt : Runtime number).

#[local] Abbreviation Value := (JSValue number).

(** A valid request ends on one of the four paths of [forward]. *)
Lemma forward_classified (w : World) (bridgeUrl : string) (body : Value) :
  body <> JNull -> body <> JUndefined ->
  forward_path rt w bridgeUrl body
    (try_catch (forward rt bridgeUrl body) (handler_catch rt) w).
Proof.
  intros Hn Hu.
  unfold try_catch, forward, bind, completion, getenv, fetch, ret.
  rewrite !(get_field rt body _ Hn Hu).
  change (JObj _) with (forwarded_payload rt body) at 1.
  set (init := Build_RequestInit _ _ _).
  assert (Hinit : init = bridge_init rt w body).
  { unfold init, bridge_init, bridge_headers.
    destruct (process_env w !! "REDDIT_BRIDGE_BYPASS_SECRET") as [[|c s]|]; reflexivity. }
  rewrite Hinit. clear init Hinit.
  change (Build_World _ _) with (sent rt w bridgeUrl body).
  destruct (fetch_completion rt bridgeUrl (bridge_init rt w body)) as [upstream|err] eqn:Hfetch.
  - destruct (up_text upstream) as [text|err] eqn:Htext.
    + destruct (up_ok upstream) eqn:Hok; simpl.
      * eapply forward_ok; eassumption.
      * eapply forward_not_ok; eassumption.
    + rewrite handler_catch_ok. eapply forward_text_fault; eassumption.
  - rewrite handler_catch_ok. eapply forward_fetch_fault; eassumption.
Qed.

(** Every invocation of the handler ends on one of its paths. *)
Lemma handler_classified (w : World) (request : Request number) :
  handler_path rt w request (handler rt request w).
Proof.
  unfold handler, handler_try.
  destruct (String.eqb_spec (req_method request) "POST") as [Hm|Hm]; simpl.
  { unfold try_catch, bind, getenv, ret.
    destruct (unauthorised _ _) eqn:Hauth.
    { apply path_auth; assumption. }
    destruct (process_env w !! "REDDIT_BRIDGE_URL") as [[|c url]|] eqn:Hurl.
    1, 3: apply path_config; unfold unconfigured; auto.
    assert (Hreach : reaches_body w request (String c url)).
    { repeat split; try assumption. discriminate. }
    destruct (req_json request) as [body|err] eqn:Hjson.
    2: { eapply path_parse; eassumption. }
    assert (Hcase : (body = JNull \/ body = JUndefined)
                    \/ (body <> JNull /\ body <> JUndefined)).
    { destruct body; auto; right; split; discriminate. }
    unfold or_else, bind, completion, ret.
    destruct Hcase as [Hnull | [Hn Hu]].
    - rewrite (get_nullish rt body _ Hnull), handler_catch_ok. simpl.
      eapply path_nullish; eassumption.
    - rewrite !(get_field rt body _ Hn Hu).
      destruct (String.eqb_spec (typeof (field rt body K_subreddit)) "string")
        as [Hs|Hs]; simpl.
      + destruct (String.eqb_spec (typeof (field rt body K_query)) "string")
          as [Hq|Hq]; simpl.
        * apply typeof_string in Hs, Hq.
          destruct Hs as [s Hs], Hq as [q Hq].
          eapply path_forward; [|apply forward_classified; assumption].
          repeat split; try assumption; try apply Hreach.
          -- exists s. rewrite get_field, Hs; auto.
          -- exists q. rewrite get_field, Hq; auto.
        * eapply path_fields; eauto.
      + eapply path_fields; eauto. }
  apply path_method. assumption.
Qed.

(** The paths of [forward] are exclusive: each outcome is the one computed. *)
Lemma forward_path_sound (w : World) (bridgeUrl : string) (body : Value) outcome :
  body <> JNull -> body <> JUndefined ->
  forward_path rt w bridgeUrl body outcome ->
  try_catch (forward rt bridgeUrl body) (handler_catch rt) w = outcome.
Proof.
  intros Hn Hu Hpath.
  pose proof (forward_classified w bridgeUrl body Hn Hu) as Hc.
  destruct Hpath; inversion Hc; congruence.
Qed.

Lemma valid_request_fields (w : World) (request : Request number) bridgeUrl body :
  valid_request rt w request bridgeUrl body ->
  body <> JNull /\ body <> JUndefined
  /\ typeof (field rt body K_subreddit) = "string"
  /\ typeof (field rt body K_query) = "string".
Proof.
  intros (_ & _ & [s Hs] & [q Hq]).
  destruct (get_ok_not_nullish rt _ _ _ Hs) as [Hn Hu].
  unfold field. rewrite Hs, Hq. auto.
Qed.

(** The paths of the handler are exclusive as well. *)
Lemma handler_path_functional (w : World) (request : Request number) o1 o2 :
  handler_path rt w request o1 -> handler_path rt w request o2 -> o1 = o2.
Proof.
  intros H1 H2.
  destruct H1; destruct H2;
    repeat match goal with
      | H : valid_request _ _ _ _ _ |- _ =>
          pose proof (valid_request_fields _ _ _ _ H);
          destruct H as (? & ? & _ & _)
      | H : reaches_body _ _ _ |- _ => destruct H as (? & ? & [? ?])
      | H : unconfigured _ _ |- _ => destruct H
      | H : _ /\ _ |- _ => destruct H
      | H : _ \/ _ |- _ => destruct H
      end;
    simplify_eq; try reflexivity; try congruence.
  assert (body0 = body) by congruence. subst body0.
  transitivity (try_catch (forward rt bridgeUrl body) (handler_catch rt) w);
    [symmetry|]; apply forward_path_sound; assumption.
Qed.

Lemma handler_path_sound (w : World) (request : Request number) outcome :
  handler_path rt w request outcome -> handler rt request w = outcome.
Proof.
  intros Hpath. eapply handler_path_functional; [apply handler_classified | exact Hpath].
Qed.

End Paths.

(** ** The claims *)

Section Claims.

Context {number : Type} (rt : Runtime number).

#[local] Abbreviation Value := (JSValue number).

(** The authentication test, case by case. *)
Lemma unauthorised_configured (env : gmap string string) secret header :
  configured env "MCP_WRAPPER_KEY" secret ->
  unauthorised (env !! "MCP_WRAPPER_KEY") header = true <-> header <> Some secret.
Proof.
  intros [-> Hne]. unfold unauthorised, strict_equal, truthy.
  destruct secret as [|c secret]; [congruence|].
  destruct header as [h|]; simpl.
  - destruct (String.eqb_spec h (String c secret)) as [->|Hd]; simpl.
    + split; [discriminate | congruence].
    + rewrite orb_true_r. split; [congruence | reflexivity].
  - split; [discriminate | reflexivity].
Qed.

Lemma unauthorised_unconfigured (env : gmap string string) header :
  unconfigured env "MCP_WRAPPER_KEY" ->
  unauthorised (env !! "MCP_WRAPPER_KEY") header = false.
Proof. intros [-> | ->]; reflexivity. Qed.

(** C1 (at the failing input): a POST that passes the method,
    authentication and configuration checks and whose body parses to
    [null] is not answered 400 with the field-validation message: reading
    [body.subreddit] throws, and the catch clause answers 500 with the
    engine's message as detail. *)
Theorem null_body_answered_500 (w : World) (request : Request number) bridgeUrl :
  reaches_body w request bridgeUrl ->
  req_json request = Ok JNull ->
  handler rt request w
  = (Ok (json rt (unexpected_object (cannot_read_message rt JNull K_subreddit)) 500), w)
  /\ resp_status (json rt (unexpected_object (cannot_read_message rt JNull K_subreddit)) 500)
     <> 400
  /\ fst (handler rt request w)
     = Ok {| resp_status := 500;
             resp_headers := {[ "content-type" := "application/json" ]};
             resp_body := JSON_stringify (number_json rt)
                            (JObj [("error", JStr "Unexpected server error.");
                         ("detail", JStr (cannot_read_message rt JNull K_subreddit))]) 2 |}.
Proof.
  intros Hreach Hjson.
  assert (Hh : handler rt request w
               = (Ok (json rt (unexpected_object (cannot_read_message rt JNull K_subreddit))
                        500), w)).
  { apply handler_path_sound. eapply path_nullish; eauto. }
  split; [exact Hh|]. split; [simpl; lia|]. rewrite Hh. reflexivity.
Qed.

(** X5: on every parsed body other than [null] (and [undefined], which
    [JSON.parse] never yields), a missing or non-string [subreddit] or
    [query] is answered 400 with the field-validation message: numbers,
    strings, booleans, arrays and objects alike. *)
Lemma field_validation (w : World) (request : Request number) bridgeUrl body :
  reaches_body w request bridgeUrl ->
  req_json request = Ok body ->
  body <> JNull -> body <> JUndefined ->
  typeof (field rt body K_subreddit) <> "string"
    \/ typeof (field rt body K_query) <> "string" ->
  handler rt request w
  = (Ok (json rt (error_object "Body must include string fields 'subreddit' and 'query'.")
           400), w)
  /\ fst (handler rt request w)
     = Ok {| resp_status := 400;
             resp_headers := {[ "content-type" := "application/json" ]};
             resp_body := JSON_stringify (number_json rt)
                            (JObj [("error",
                          JStr "Body must include string fields 'subreddit' and 'query'.")]) 2 |}.
Proof.
  intros.
  assert (Hh : handler rt request w
               = (Ok (json rt (error_object
                                 "Body must include string fields 'subreddit' and 'query'.")
                        400), w)).
  { apply handler_path_sound. eapply path_fields; eauto. }
  split; [exact Hh|]. rewrite Hh. reflexivity.
Qed.

(** C2 (amended): an invocation leaves the process environment as it was
    and makes at most one outbound call: exactly one, appended to the log,
    when the request is valid, and none when the invocation ends at the
    method, authentication, configuration, body-parse or field-validation
    step. *)
Theorem outbound_calls (w : World) (request : Request number) :
  let w' := snd (handler rt request w) in
  process_env w' = process_env w
  /\ (((exists bridgeUrl body, valid_request rt w request bridgeUrl body)
       /\ exists call, outbound w' = (outbound w ++ [call])%list)
      \/ ((~ exists bridgeUrl body, valid_request rt w request bridgeUrl body)
          /\ outbound w' = outbound w)).
Proof.
  pose proof (handler_classified rt w request) as Hc. simpl.
  destruct Hc as [Hm|Hm Ha|Hm Ha Hu|url err Hr Hj|url body Hr Hj Hn
                 |url body Hr Hj Hn Hu Hf|url body outcome Hv Hf];
    simpl; (split; [try reflexivity|]).
  1-6: right; split; [|reflexivity]; intros (url' & body' & Hv);
       pose proof (valid_request_fields rt _ _ _ _ Hv) as (? & ? & ? & ?);
       destruct Hv as ((? & ? & [? ?]) & ? & _ & _).
  - congruence.
  - congruence.
  - destruct Hu; congruence.
  - congruence.
  - simplify_eq. destruct Hn; congruence.
  - simplify_eq. destruct Hf; congruence.
  - destruct Hf; reflexivity.
  - left. split; [eauto|]. destruct Hf; simpl; eauto.
Qed.

(** A valid request ends on one of the paths of [forward]. *)
Lemma handler_valid (w : World) (request : Request number) bridgeUrl body :
  valid_request rt w request bridgeUrl body ->
  forward_path rt w bridgeUrl body (handler rt request w).
Proof.
  intros Hv.
  destruct (valid_request_fields rt _ _ _ _ Hv) as (Hn & Hu & _).
  pose proof (forward_classified rt w bridgeUrl body Hn Hu) as Hf.
  rewrite (handler_path_sound rt w request _ (path_forward rt w request _ _ _ Hv Hf)).
  exact Hf.
Qed.

(** C3: the handler always returns a response, and a fault thrown inside
    the [try] is answered with status 500 and the serialized object of
    [error: Unexpected server error.] and, as [detail], the thrown value's
    message when that message is a string and [Unknown error] otherwise; so
    are, on a valid request, a [fetch] that rejects and a body read that
    rejects. *)
Theorem handler_never_throws (w : World) (request : Request number) :
  (exists response w', handler rt request w = (Ok response, w'))
  /\ (forall err w1,
        handler_try rt request w = (Throw err, w1) ->
        handler rt request w
        = (Ok {| resp_status := 500;
                   resp_headers := {[ "content-type" := "application/json" ]};
                   resp_body := JSON_stringify (number_json rt)
                                  (JObj [("error", JStr "Unexpected server error.");
                               ("detail", JStr (error_detail err))]) 2 |},
           w1))
  /\ (forall bridgeUrl body err,
        valid_request rt w request bridgeUrl body ->
        fetch_completion rt bridgeUrl (bridge_init rt w body) = Throw err
        \/ (exists upstream,
              fetch_completion rt bridgeUrl (bridge_init rt w body) = Ok upstream
              /\ up_text upstream = Throw err) ->
        fst (handler rt request w)
        = Ok {| resp_status := 500;
                resp_headers := {[ "content-type" := "application/json" ]};
                resp_body := JSON_stringify (number_json rt)
                               (JObj [("error", JStr "Unexpected server error.");
                            ("detail", JStr (error_detail err))]) 2 |}).
Proof.
  split; [|split].
  - destruct (handler_classified rt w request) as [| | | | | |? ? ? ? []]; eauto.
  - intros err w1 Htry. unfold handler, try_catch. rewrite Htry.
    rewrite handler_catch_ok. reflexivity.
  - intros bridgeUrl body err Hv Hfault.
    destruct (handler_valid w request bridgeUrl body Hv);
      destruct Hfault as [Hfetch | (up & Hfetch & Htext)]; cbn [fst];
      unfold json, unexpected_object; congruence.
Qed.

Lemma bridge_headers_content_type (env : gmap string string) :
  bridge_headers env !! "content-type" = Some "application/json".
Proof.
  unfold bridge_headers.
  destruct (env !! "REDDIT_BRIDGE_BYPASS_SECRET") as [[|c s]|]; reflexivity.
Qed.

Lemma bridge_headers_bypass (env : gmap string string) secret :
  bridge_headers env !! "x-vercel-protection-bypass" = Some secret
  <-> configured env "REDDIT_BRIDGE_BYPASS_SECRET" secret.
Proof.
  unfold bridge_headers, configured.
  destruct (env !! "REDDIT_BRIDGE_BYPASS_SECRET") as [[|c s]|] eqn:Hs.
  - rewrite lookup_singleton_ne by discriminate.
    split; [discriminate | intros [H1 H2]; congruence].
  - rewrite lookup_insert_eq.
    split; [intros H; split; congruence | intros [H _]; exact H].
  - rewrite lookup_singleton_ne by discriminate.
    split; [discriminate | intros [H _]; discriminate].
Qed.

(** C4: a valid request makes exactly one outbound call, a POST to the
    configured URL, with [content-type: application/json], with
    [x-vercel-protection-bypass] carrying the bypass secret exactly when
    one is configured, and with the serialized payload of the five copied
    fields as body, in which the undefined ones leave no trace. *)
Theorem upstream_dispatch (w : World) (request : Request number) bridgeUrl body :
  valid_request rt w request bridgeUrl body ->
  exists headers text,
    outbound (snd (handler rt request w))
    = (outbound w
        ++ [{| call_url := bridgeUrl;
               call_init := {| init_method := "POST";
                               init_headers := headers;
                               init_body := Some text |} |}])%list
    /\ headers !! "content-type" = Some "application/json"
    /\ (forall secret,
          headers !! "x-vercel-protection-bypass" = Some secret
          <-> configured (process_env w) "REDDIT_BRIDGE_BYPASS_SECRET" secret)
    /\ JSON_stringify (number_json rt) (forwarded_payload rt body) 0 = Some text
    /\ JSON_stringify (number_json rt) (JObj (defined_props (payload_props rt body))) 0
       = Some text.
Proof.
  intros Hv.
  destruct (stringify_object (number_json rt) (payload_props rt body) 0) as [text Htext].
  exists (bridge_headers (process_env w)), text.
  split; [|split; [|split; [|split]]].
  - assert (Hsent : snd (handler rt request w) = sent rt w bridgeUrl body).
    { destruct (handler_valid w request bridgeUrl body Hv); reflexivity. }
    rewrite Hsent. unfold sent, bridge_init, forwarded_payload. simpl.
    rewrite Htext. reflexivity.
  - apply bridge_headers_content_type.
  - apply bridge_headers_bypass.
  - exact Htext.
  - rewrite <- Htext. unfold JSON_stringify. symmetry.
    apply serialize_defined_props.
Qed.

(** C5: a valid request whose upstream call completes with an ok status is
    answered 200 with the success object, whose data is the parsed upstream
    body when it parses and the raw text when it does not. *)
Theorem upstream_success (w : World) (request : Request number) bridgeUrl body
    upstream text :
  valid_request rt w request bridgeUrl body ->
  fetch_completion rt bridgeUrl (bridge_init rt w body) = Ok upstream ->
  up_text upstream = Ok text ->
  up_ok upstream = true ->
  exists data,
    fst (handler rt request w)
    = Ok {| resp_status := 200;
            resp_headers := {[ "content-type" := "application/json" ]};
            resp_body :=
              JSON_stringify (number_json rt)
                (JObj [("ok", JBool true); ("bridge_status", JNum (up_status upstream));
                       ("bridge_url", JStr bridgeUrl); ("data", data)]) 2 |}
    /\ match JSON_parse rt text with
       | Ok parsed => data = parsed
       | Throw _ => data = JStr text
       end.
Proof.
  intros Hv Hfetch Htext Hok.
  exists (upstream_data rt text). split.
  - destruct (handler_valid w request bridgeUrl body Hv); simpl;
      unfold json, success_object, upstream_error_object; congruence.
  - unfold upstream_data. destruct (JSON_parse rt text); reflexivity.
Qed.

(** C6: a valid request whose upstream call completes with a status that
    is not ok is answered 502 with the upstream status and, as detail, the
    parsed upstream body or its raw text. *)
Theorem upstream_failure (w : World) (request : Request number) bridgeUrl body
    upstream text :
  valid_request rt w request bridgeUrl body ->
  fetch_completion rt bridgeUrl (bridge_init rt w body) = Ok upstream ->
  up_text upstream = Ok text ->
  up_ok upstream = false ->
  exists detail,
    fst (handler rt request w)
    = Ok {| resp_status := 502;
            resp_headers := {[ "content-type" := "application/json" ]};
            resp_body :=
              JSON_stringify (number_json rt)
                (JObj [("error", JStr "Upstream bridge error.");
                       ("status", JNum (up_status upstream));
                       ("detail", detail)]) 2 |}
    /\ match JSON_parse rt text with
       | Ok parsed => detail = parsed
       | Throw _ => detail = JStr text
       end.
Proof.
  intros Hv Hfetch Htext Hok.
  exists (upstream_data rt text). split.
  - destruct (handler_valid w request bridgeUrl body Hv); simpl;
      unfold json, success_object, upstream_error_object; congruence.
  - unfold upstream_data. destruct (JSON_parse rt text); reflexivity.
Qed.

(** A response with status 401 comes from the authentication step. *)
Lemma status_401 (w : World) (request : Request number) response w' :
  handler rt request w = (Ok response, w') ->
  resp_status response = 401 ->
  unauthorised (process_env w !! "MCP_WRAPPER_KEY")
               (req_headers request !! "x-mcp-key") = true.
Proof.
  intros Hh Hs.
  pose proof (handler_classified rt w request) as Hc. rewrite Hh in Hc.
  inversion Hc as [| | | | | |? ? ? ? Hf]; subst; try discriminate Hs; try assumption.
  inversion Hf; subst; discriminate Hs.
Qed.

(** C7: on a POST, with a wrapper secret configured, a header that is
    absent or differs from the secret is answered with status 401 and the
    serialized object of [error: Unauthorised.], nothing being sent, and a
    header equal to the secret is never answered 401; with no wrapper
    secret configured, no request is answered 401. *)
Theorem wrapper_authentication (w : World) (request : Request number) :
  req_method request = "POST" ->
  (forall secret,
      configured (process_env w) "MCP_WRAPPER_KEY" secret ->
      (req_headers request !! "x-mcp-key" <> Some secret ->
       handler rt request w
       = (Ok {| resp_status := 401;
                  resp_headers := {[ "content-type" := "application/json" ]};
                  resp_body := JSON_stringify (number_json rt)
                                 (JObj [("error", JStr "Unauthorised.")]) 2 |},
          w))
      /\ (req_headers request !! "x-mcp-key" = Some secret ->
          forall response w',
            handler rt request w = (Ok response, w') -> resp_status response <> 401))
  /\ (unconfigured (process_env w) "MCP_WRAPPER_KEY" ->
      forall response w',
        handler rt request w = (Ok response, w') -> resp_status response <> 401).
Proof.
  intros Hm. split.
  - intros secret Hc. split.
    + intros Hh.
      change (handler rt request w = (Ok (json rt (error_object "Unauthorised.") 401), w)).
      apply handler_path_sound. apply path_auth; [exact Hm|].
      apply (unauthorised_configured _ _ _ Hc). exact Hh.
    + intros Hh response w' Hr Hs.
      apply (status_401 _ _ _ _ Hr) in Hs.
      apply (unauthorised_configured _ _ _ Hc) in Hs. contradiction.
  - intros Hu response w' Hr Hs.
    apply (status_401 _ _ _ _ Hr) in Hs.
    rewrite (unauthorised_unconfigured _ _ Hu) in Hs. discriminate.
Qed.

(** C8: the upstream call of a valid request depends on the parsed body
    through its five copied fields only. *)
Theorem forwarded_fields_only (w : World) (request1 request2 : Request number)
    bridgeUrl body1 body2 :
  valid_request rt w request1 bridgeUrl body1 ->
  valid_request rt w request2 bridgeUrl body2 ->
  (forall k, In k payload_keys -> get rt body1 k = get rt body2 k) ->
  forwarded_payload rt body1 = forwarded_payload rt body2
  /\ JSON_stringify (number_json rt) (forwarded_payload rt body1) 0
     = JSON_stringify (number_json rt) (forwarded_payload rt body2) 0
  /\ outbound (snd (handler rt request1 w)) = outbound (snd (handler rt request2 w)).
Proof.
  intros Hv1 Hv2 Hagree.
  assert (Hp : forwarded_payload rt body1 = forwarded_payload rt body2).
  { unfold forwarded_payload, payload_props, field. f_equal.
    apply map_ext_in. intros k Hk. rewrite (Hagree k Hk). reflexivity. }
  split; [exact Hp|]. split; [rewrite Hp; reflexivity|].
  assert (Hs : sent rt w bridgeUrl body1 = sent rt w bridgeUrl body2).
  { unfold sent, bridge_init. rewrite Hp. reflexivity. }
  destruct (handler_valid w request1 bridgeUrl body1 Hv1);
    destruct (handler_valid w request2 bridgeUrl body2 Hv2); cbn [snd]; rewrite Hs; reflexivity.
Qed.

(** C10: on each of its terminal outcomes (405, 401, 500 misconfigured,
    400 parse, 400 validation, 502, 200 and the catch-all 500) the handler
    returns the status of that outcome, the single header
    [content-type: application/json], and as body the serialization, with an
    indentation of two spaces, of the object of that outcome; and every
    invocation ends on one of them. *)
Theorem responses_are_json (w : World) (request : Request number) :
  exists response w' status data,
    handler rt request w = (Ok response, w')
    /\ terminal_outcome rt w request status data
    /\ resp_status response = status
    /\ resp_headers response = {[ "content-type" := "application/json" ]}
    /\ resp_body response = JSON_stringify (number_json rt) data 2
    /\ is_Some (resp_body response)
    /\ In status [405; 401; 500; 400; 502; 200].
Proof.
  destruct (handler_classified rt w request)
    as [Hm|Hm Ha|Hm Ha Hu|url err Hr Hj|url body Hr Hj Hn
       |url body Hr Hj Hn Hu Hf|url body outcome Hv Hf].
  7: destruct Hf as [err Hf|up err Hf Ht|up text Hf Ht Hok|up text Hf Ht Hok].
  all: eexists _, _, _, _; (split; [reflexivity|]); cbn [json resp_status resp_headers resp_body].
  all: (split; [|split; [reflexivity|split; [reflexivity|split; [reflexivity|
         split; [eexists; reflexivity | simpl; tauto]]]]]).
  - apply outcome_method; assumption.
  - apply outcome_auth; assumption.
  - apply outcome_config; assumption.
  - eapply outcome_parse; eassumption.
  - apply (outcome_catch_all rt w request (JError (cannot_read_message rt body K_subreddit))).
    eapply thrown_null_body; eassumption.
  - eapply outcome_validation; eassumption.
  - apply outcome_catch_all. eapply thrown_fetch; eassumption.
  - apply outcome_catch_all. eapply thrown_text; eassumption.
  - eapply outcome_upstream_error; eassumption.
  - eapply outcome_success; eassumption.
Qed.

(** Unsetting a wrapper key that is the empty string changes no path. *)
Lemma forward_path_unset_key (w : World) bridgeUrl body outcome :
  let unset := with_env (delete "MCP_WRAPPER_KEY" (process_env w)) in
  forward_path rt w bridgeUrl body outcome ->
  forward_path rt (unset w) bridgeUrl body (fst outcome, unset (snd outcome)).
Proof.
  intros unset Hp.
  assert (Hi : bridge_init rt (unset w) body = bridge_init rt w body).
  { unfold bridge_init, bridge_headers, unset. simpl.
    rewrite lookup_delete_ne by discriminate. reflexivity. }
  assert (Hs : unset (sent rt w bridgeUrl body) = sent rt (unset w) bridgeUrl body).
  { unfold sent. rewrite Hi. reflexivity. }
  destruct Hp; cbn [fst snd]; rewrite Hs;
    [ eapply forward_fetch_fault | eapply forward_text_fault
    | eapply forward_not_ok | eapply forward_ok ];
    rewrite ?Hi; eassumption.
Qed.

Lemma handler_path_unset_key (w : World) (request : Request number) outcome :
  let unset := with_env (delete "MCP_WRAPPER_KEY" (process_env w)) in
  process_env w !! "MCP_WRAPPER_KEY" = Some "" ->
  handler_path rt w request outcome ->
  handler_path rt (unset w) request (fst outcome, unset (snd outcome)).
Proof.
  intros unset Hk Hp.
  assert (Ha : forall header,
             unauthorised (process_env (unset w) !! "MCP_WRAPPER_KEY") header = false).
  { intros header. unfold unset. simpl. rewrite lookup_delete_eq. reflexivity. }
  assert (Hu : process_env (unset w) !! "REDDIT_BRIDGE_URL"
               = process_env w !! "REDDIT_BRIDGE_URL").
  { unfold unset. simpl. apply lookup_delete_ne. discriminate. }
  assert (Hr : forall bridgeUrl,
             reaches_body w request bridgeUrl -> reaches_body (unset w) request bridgeUrl).
  { intros bridgeUrl (Hm & _ & Hc). unfold reaches_body, configured.
    rewrite Ha, Hu. auto. }
  destruct Hp as [Hm|Hm Hx|Hm Hx Hc|url err Hb Hj|url body Hb Hj Hn
                 |url body Hb Hj Hn Hd Hf|url body outcome Hv Hf]; cbn [fst snd].
  - apply path_method. exact Hm.
  - rewrite Hk in Hx. discriminate.
  - apply path_config; [exact Hm | apply Ha |].
    unfold unconfigured. rewrite Hu. exact Hc.
  - eapply path_parse; eauto.
  - eapply path_nullish; eauto.
  - eapply path_fields; eauto.
  - eapply path_forward; [|apply forward_path_unset_key; exact Hf].
    destruct Hv as (Hb & Hrest). split; auto.
Qed.

(** C9: a variable set to the empty string behaves as an unset one. With
    an empty wrapper key the handler answers as with the key unset and
    never answers 401; with an empty bypass secret the upstream call carries
    no bypass header; with an empty upstream URL a POST that passes
    authentication is answered with the 500 misconfiguration response. *)
Theorem empty_string_is_unset (w : World) (request : Request number) :
  (process_env w !! "MCP_WRAPPER_KEY" = Some "" ->
   let unset := with_env (delete "MCP_WRAPPER_KEY" (process_env w)) in
   (forall header, unauthorised (process_env w !! "MCP_WRAPPER_KEY") header = false)
   /\ (forall response w',
          handler rt request w = (Ok response, w') -> resp_status response <> 401)
   /\ handler rt request (unset w)
      = (fst (handler rt request w), unset (snd (handler rt request w))))
  /\ (process_env w !! "REDDIT_BRIDGE_BYPASS_SECRET" = Some "" ->
      forall call,
        In call (outbound (snd (handler rt request w))) ->
        In call (outbound w)
        \/ init_headers (call_init call) !! "x-vercel-protection-bypass" = None)
  /\ (process_env w !! "REDDIT_BRIDGE_URL" = Some "" ->
      req_method request = "POST" ->
      unauthorised (process_env w !! "MCP_WRAPPER_KEY")
                   (req_headers request !! "x-mcp-key") = false ->
      handler rt request w
      = (Ok (json rt (error_object "Server misconfigured: REDDIT_BRIDGE_URL not set.") 500),
         w)
      /\ fst (handler rt request w)
         = Ok {| resp_status := 500;
                 resp_headers := {[ "content-type" := "application/json" ]};
                 resp_body := JSON_stringify (number_json rt)
                                (JObj [("error",
                              JStr "Server misconfigured: REDDIT_BRIDGE_URL not set.")]) 2 |}).
Proof.
  split; [|split].
  - intros Hk unset. split; [|split].
    + intros header. rewrite Hk. reflexivity.
    + intros response w' Hr Hs. apply (status_401 _ _ _ _ Hr) in Hs.
      rewrite Hk in Hs. discriminate.
    + apply handler_path_sound. apply handler_path_unset_key; [exact Hk|].
      apply handler_classified.
  - intros Hb call Hin.
    destruct (handler_classified rt w request) as [| | | | | |url body outcome Hv Hf];
      cbn [snd] in Hin; auto.
    assert (Hs : snd outcome = sent rt w url body) by (destruct Hf; reflexivity).
    rewrite Hs in Hin. unfold sent in Hin. cbn [outbound] in Hin.
    apply in_app_or in Hin. destruct Hin as [Hin | [<- | []]]; [auto|].
    right. simpl. unfold bridge_headers. rewrite Hb. reflexivity.
  - intros Hu Hm Ha.
    assert (Hh : handler rt request w
                 = (Ok (json rt (error_object
                                   "Server misconfigured: REDDIT_BRIDGE_URL not set.") 500),
                    w)).
    { apply handler_path_sound. apply path_config; unfold unconfigured; auto. }
    split; [exact Hh|]. rewrite Hh. reflexivity.
Qed.

End Claims.

(** ** The claims on the sample deployment *)

Lemma null_body_answered_500_witness :
  handler sample_runtime (post ∅ JNull) (world_of open_env)
  = (Ok (json sample_runtime
           (unexpected_object "Cannot read properties of null (reading 'subreddit')") 500),
     world_of open_env)
  /\ resp_status (json sample_runtime
           (unexpected_object "Cannot read properties of null (reading 'subreddit')") 500)
     <> 400
  /\ fst (handler sample_runtime (post ∅ JNull) (world_of open_env))
     = Ok {| resp_status := 500;
             resp_headers := {[ "content-type" := "application/json" ]};
             resp_body := JSON_stringify (number_json sample_runtime)
                            (JObj [("error", JStr "Unexpected server error.");
                         ("detail",
                          JStr "Cannot read properties of null (reading 'subreddit')")]) 2 |}.
Proof.
  apply (null_body_answered_500 sample_runtime (world_of open_env) (post ∅ JNull) sample_url).
  - repeat split; vm_compute; congruence.
  - reflexivity.
Defined.

(** C2 (as stated) fails: a GET request is answered without any outbound
    call. *)
Lemma outbound_calls_counterexample :
  ~ (forall (request : Request Z) (w : World),
        exists call,
          outbound (snd (handler sample_runtime request w)) = (outbound w ++ [call])%list).
Proof.
  intros H. destruct (H get_request (world_of open_env)) as [call Hcall].
  vm_compute in Hcall. discriminate.
Qed.

Example method_not_allowed :
  handler sample_runtime get_request (world_of guarded_env)
  = (Ok (json sample_runtime (error_object "Method not allowed. Use POST.") 405),
     world_of guarded_env).
Proof. vm_compute. reflexivity. Qed.

Example string_body_rejected :
  fst (handler sample_runtime (post ∅ (JStr "subreddit")) (world_of open_env))
  = Ok (json sample_runtime
          (error_object "Body must include string fields 'subreddit' and 'query'.") 400).
Proof. vm_compute. reflexivity. Qed.

Example array_body_rejected :
  fst (handler sample_runtime (post ∅ (JArr [JStr "test"; JStr "foo"])) (world_of open_env))
  = Ok (json sample_runtime
          (error_object "Body must include string fields 'subreddit' and 'query'.") 400).
Proof. vm_compute. reflexivity. Qed.

Example numeric_query_rejected :
  fst (handler sample_runtime
         (post ∅ (JObj [("subreddit", JStr "test"); ("query", JNum 7)]))
         (world_of open_env))
  = Ok (json sample_runtime
          (error_object "Body must include string fields 'subreddit' and 'query'.") 400).
Proof. vm_compute. reflexivity. Qed.

Example relay_success :
  fst (handler sample_runtime (post ∅ sample_body) (world_of open_env))
  = Ok (json sample_runtime
          (success_object 200 sample_url (JObj [("comments", JArr [])])) 200).
Proof. vm_compute. reflexivity. Qed.

Example relay_plain_text :
  fst (handler sample_runtime (post ∅ sample_body) (world_of down_env))
  = Ok (json sample_runtime
          (upstream_error_object 503 (JStr "Service Unavailable")) 502).
Proof. vm_compute. reflexivity. Qed.

Lemma sample_valid :
  valid_request sample_runtime (world_of open_env) (post ∅ sample_body)
    sample_url sample_body.
Proof.
  repeat split; try (vm_compute; congruence); eexists; reflexivity.
Defined.

Lemma sample_valid_guarded :
  valid_request sample_runtime (world_of guarded_env)
    (post {[ "x-mcp-key" := "s3cret" ]} sample_body_extra) sample_url sample_body_extra.
Proof.
  repeat split; try (vm_compute; congruence); eexists; reflexivity.
Defined.

Lemma sample_valid_down :
  valid_request sample_runtime (world_of down_env) (post ∅ sample_body)
    sample_down_url sample_body.
Proof.
  repeat split; try (vm_compute; congruence); eexists; reflexivity.
Defined.

Lemma handler_never_throws_witness :
  handler sample_runtime (post ∅ sample_body) (world_of unreachable_env)
  = (Ok {| resp_status := 500;
             resp_headers := {[ "content-type" := "application/json" ]};
             resp_body := JSON_stringify (number_json sample_runtime)
                            (JObj [("error", JStr "Unexpected server error.");
                         ("detail", JStr "fetch failed")]) 2 |},
     sent sample_runtime (world_of unreachable_env) "https://nowhere.example/" sample_body).
Proof.
  apply (proj1 (proj2 (handler_never_throws sample_runtime (world_of unreachable_env)
                         (post ∅ sample_body))) (JError "fetch failed")).
  vm_compute. reflexivity.
Defined.

Lemma upstream_dispatch_witness :
  exists headers text,
    outbound (snd (handler sample_runtime
                     (post {[ "x-mcp-key" := "s3cret" ]} sample_body_extra)
                     (world_of guarded_env)))
    = ([] ++ [{| call_url := sample_url;
                 call_init := {| init_method := "POST";
                                 init_headers := headers;
                                 init_body := Some text |} |}])%list
    /\ headers !! "content-type" = Some "application/json"
    /\ (forall secret,
          headers !! "x-vercel-protection-bypass" = Some secret
          <-> configured guarded_env "REDDIT_BRIDGE_BYPASS_SECRET" secret)
    /\ JSON_stringify (number_json sample_runtime)
         (forwarded_payload sample_runtime sample_body_extra) 0 = Some text
    /\ JSON_stringify (number_json sample_runtime)
         (JObj (defined_props (payload_props sample_runtime sample_body_extra))) 0
       = Some text.
Proof.
  exact (upstream_dispatch sample_runtime _ _ _ _ sample_valid_guarded).
Defined.

Lemma upstream_success_witness :
  exists data,
    fst (handler sample_runtime (post ∅ sample_body) (world_of open_env))
    = Ok {| resp_status := 200;
            resp_headers := {[ "content-type" := "application/json" ]};
            resp_body :=
              JSON_stringify (number_json sample_runtime)
                (JObj [("ok", JBool true); ("bridge_status", JNum 200);
                       ("bridge_url", JStr sample_url); ("data", data)]) 2 |}
    /\ match JSON_parse sample_runtime sample_text with
       | Ok parsed => data = parsed
       | Throw _ => data = JStr sample_text
       end.
Proof.
  exact (upstream_success sample_runtime _ _ _ _
           {| up_status := 200; up_ok := true; up_text := Ok sample_text |} sample_text
           sample_valid eq_refl eq_refl eq_refl).
Defined.

Lemma upstream_failure_witness :
  exists detail,
    fst (handler sample_runtime (post ∅ sample_body) (world_of down_env))
    = Ok {| resp_status := 502;
            resp_headers := {[ "content-type" := "application/json" ]};
            resp_body :=
              JSON_stringify (number_json sample_runtime)
                (JObj [("error", JStr "Upstream bridge error.");
                       ("status", JNum 503);
                       ("detail", detail)]) 2 |}
    /\ match JSON_parse sample_runtime "Service Unavailable" with
       | Ok parsed => detail = parsed
       | Throw _ => detail = JStr "Service Unavailable"
       end.
Proof.
  exact (upstream_failure sample_runtime _ _ _ _
           {| up_status := 503; up_ok := false; up_text := Ok "Service Unavailable" |}
           "Service Unavailable" sample_valid_down eq_refl eq_refl eq_refl).
Defined.

Lemma wrapper_authentication_witness :
  handler sample_runtime (post ∅ sample_body) (world_of guarded_env)
  = (Ok {| resp_status := 401;
             resp_headers := {[ "content-type" := "application/json" ]};
             resp_body := JSON_stringify (number_json sample_runtime)
                            (JObj [("error", JStr "Unauthorised.")]) 2 |},
     world_of guarded_env).
Proof.
  apply (proj1 (wrapper_authentication sample_runtime (world_of guarded_env)
                  (post ∅ sample_body) eq_refl) "s3cret").
  - split; [reflexivity | discriminate].
  - discriminate.
Defined.

Lemma forwarded_fields_only_witness :
  forwarded_payload sample_runtime sample_body
  = forwarded_payload sample_runtime sample_body_extra
  /\ JSON_stringify (number_json sample_runtime)
       (forwarded_payload sample_runtime sample_body) 0
     = JSON_stringify (number_json sample_runtime)
         (forwarded_payload sample_runtime sample_body_extra) 0
  /\ outbound (snd (handler sample_runtime (post ∅ sample_body) (world_of open_env)))
     = outbound (snd (handler sample_runtime (post ∅ sample_body_extra) (world_of open_env))).
Proof.
  apply (forwarded_fields_only sample_runtime (world_of open_env)
           (post ∅ sample_body) (post ∅ sample_body_extra) sample_url).
  - exact sample_valid.
  - repeat split; try (vm_compute; congruence); eexists; reflexivity.
  - intros k Hk. simpl in Hk.
    destruct Hk as [<-|[<-|[<-|[<-|[<-|[]]]]]]; reflexivity.
Defined.

Lemma empty_string_is_unset_witness :
  (let unset := with_env (delete "MCP_WRAPPER_KEY" blank_key_env) in
   let request := post {[ "x-mcp-key" := "guess" ]} sample_body in
   (forall header, unauthorised (blank_key_env !! "MCP_WRAPPER_KEY") header = false)
   /\ (forall response w',
          handler sample_runtime request (world_of blank_key_env) = (Ok response, w') ->
          resp_status response <> 401)
   /\ handler sample_runtime request (unset (world_of blank_key_env))
      = (fst (handler sample_runtime request (world_of blank_key_env)),
         unset (snd (handler sample_runtime request (world_of blank_key_env)))))
  /\ (forall call,
        In call (outbound (snd (handler sample_runtime (post ∅ sample_body)
                                  (world_of blank_bypass_env)))) ->
        In call []
        \/ init_headers (call_init call) !! "x-vercel-protection-bypass" = None)
  /\ (handler sample_runtime (post ∅ sample_body) (world_of blank_env)
      = (Ok (json sample_runtime
               (error_object "Server misconfigured: REDDIT_BRIDGE_URL not set.") 500),
         world_of blank_env)
      /\ fst (handler sample_runtime (post ∅ sample_body) (world_of blank_env))
         = Ok {| resp_status := 500;
                 resp_headers := {[ "content-type" := "application/json" ]};
                 resp_body := JSON_stringify (number_json sample_runtime)
                                (JObj [("error",
                              JStr "Server misconfigured: REDDIT_BRIDGE_URL not set.")]) 2 |}).
Proof.
  split; [|split].
  - apply (proj1 (empty_string_is_unset sample_runtime (world_of blank_key_env)
                    (post {[ "x-mcp-key" := "guess" ]} sample_body))).
    reflexivity.
  - apply (proj1 (proj2 (empty_string_is_unset sample_runtime (world_of blank_bypass_env)
                           (post ∅ sample_body)))).
    reflexivity.
  - apply (proj2 (proj2 (empty_string_is_unset sample_runtime (world_of blank_env)
                           (post ∅ sample_body)))); reflexivity.
Defined.

(** ** What a status tells about the invocation *)

Section Statuses.

Context {number : Type} (rt : Runtime number).

#[local] Abbreviation Value := (JSValue number).

Lemma answered_on_path (w : World) (request : Request number) response w' :
  handler_path rt w request (Ok response, w') ->
  answered rt w request (resp_status response).
Proof.
  intros Hp. exists response, w'. split; [|reflexivity].
  apply handler_path_sound. exact Hp.
Qed.

Ltac on_path H :=
  let response := fresh "response" in
  let w' := fresh "w'" in
  let Hh := fresh "Hh" in
  let Hs := fresh "Hs" in
  let Hc := fresh "Hc" in
  destruct H as (response & w' & Hh & Hs);
  match type of Hh with
  | handler _ ?request ?w = _ =>
      pose proof (handler_classified rt w request) as Hc;
      rewrite Hh in Hc;
      inversion Hc as [| | | | | |? ? ? ? Hf]; subst;
      try discriminate Hs;
      try (inversion Hf; subst; try discriminate Hs)
  end.



(** X3: configuration comes before the body: on a POST that passes
    authentication, an upstream URL that is unset or empty is answered 500
    with the misconfiguration message whatever the body is, parseable or
    not, and nothing is sent. *)
Theorem misconfiguration_precedes_body (w : World) (request : Request number) :
  req_method request = "POST" ->
  unauthorised (process_env w !! "MCP_WRAPPER_KEY")
               (req_headers request !! "x-mcp-key") = false ->
  unconfigured (process_env w) "REDDIT_BRIDGE_URL" ->
  handler rt request w
  = (Ok (json rt (error_object "Server misconfigured: REDDIT_BRIDGE_URL not set.") 500), w)
  /\ fst (handler rt request w)
     = Ok {| resp_status := 500;
             resp_headers := {[ "content-type" := "application/json" ]};
             resp_body := JSON_stringify (number_json rt)
                            (JObj [("error",
                          JStr "Server misconfigured: REDDIT_BRIDGE_URL not set.")]) 2 |}.
Proof.
  intros Hm Ha Hu.
  assert (Hh : handler rt request w
               = (Ok (json rt (error_object
                                 "Server misconfigured: REDDIT_BRIDGE_URL not set.") 500),
                  w)).
  { apply handler_path_sound. apply path_config; assumption. }
  split; [exact Hh|]. rewrite Hh. reflexivity.
Qed.

(** X4: a request that reaches the body and whose body does not parse is
    answered 400 with the parse message, whatever was thrown, and nothing
    is sent. *)
Theorem unparseable_body (w : World) (request : Request number) bridgeUrl err :
  reaches_body w request bridgeUrl ->
  req_json request = Throw err ->
  handler rt request w
  = (Ok (json rt (error_object "Request body must be valid JSON.") 400), w)
  /\ fst (handler rt request w)
     = Ok {| resp_status := 400;
             resp_headers := {[ "content-type" := "application/json" ]};
             resp_body := JSON_stringify (number_json rt)
                            (JObj [("error", JStr "Request body must be valid JSON.")]) 2 |}.
Proof.
  intros Hr Hj.
  assert (Hh : handler rt request w
               = (Ok (json rt (error_object "Request body must be valid JSON.") 400), w)).
  { apply handler_path_sound. eapply path_parse; eassumption. }
  split; [exact Hh|]. rewrite Hh. reflexivity.
Qed.

(** X6: the answer is 400 exactly when the request reaches the body and the
    body either does not parse, or parses to a value other than [null]
    whose [subreddit] or [query] is not a string. *)
Theorem status_400_iff (w : World) (request : Request number) :
  answered rt w request 400
  <-> exists bridgeUrl,
        reaches_body w request bridgeUrl
        /\ ((exists err, req_json request = Throw err)
            \/ (exists body,
                  req_json request = Ok body
                  /\ body <> JNull /\ body <> JUndefined
                  /\ (typeof (field rt body K_subreddit) <> "string"
                      \/ typeof (field rt body K_query) <> "string"))).
Proof.
  split.
  - intros H. on_path H; eexists; (split; [eassumption|]); eauto 10.
  - intros (url & Hr & [[err Hj] | (body & Hj & Hn & Hu & Hf)]);
      eapply (answered_on_path _ _ (json rt _ 400)).
    + eapply path_parse; eassumption.
    + eapply path_fields; eassumption.
Qed.

(** X7: the answer is 200 exactly when the request is valid and its upstream
    call and body read complete with the ok flag set: no other invocation
    is ever answered 200. *)
Theorem status_200_iff (w : World) (request : Request number) :
  answered rt w request 200
  <-> exists bridgeUrl body upstream text,
        valid_request rt w request bridgeUrl body
        /\ fetch_completion rt bridgeUrl (bridge_init rt w body) = Ok upstream
        /\ up_text upstream = Ok text
        /\ up_ok upstream = true.
Proof.
  split.
  - intros H. on_path H. eauto 10.
  - intros (url & body & upstream & text & Hv & Hfetch & Htext & Hok).
    eapply (answered_on_path _ _ (json rt _ 200)).
    eapply path_forward; [exact Hv|]. eapply forward_ok; eassumption.
Qed.

(** X8: the answer is 502 exactly when the request is valid and its upstream
    call and body read complete with the ok flag not set. *)
Theorem status_502_iff (w : World) (request : Request number) :
  answered rt w request 502
  <-> exists bridgeUrl body upstream text,
        valid_request rt w request bridgeUrl body
        /\ fetch_completion rt bridgeUrl (bridge_init rt w body) = Ok upstream
        /\ up_text upstream = Ok text
        /\ up_ok upstream = false.
Proof.
  split.
  - intros H. on_path H. eauto 10.
  - intros (url & body & upstream & text & Hv & Hfetch & Htext & Hok).
    eapply (answered_on_path _ _ (json rt _ 502)).
    eapply path_forward; [exact Hv|]. eapply forward_not_ok; eassumption.
Qed.

(** X9: the answer is 500 in exactly three situations: the upstream URL is not
    configured; the body parsed to [null]; or the request is valid and the
    upstream call or the read of its body failed. *)
Theorem status_500_iff (w : World) (request : Request number) :
  answered rt w request 500
  <-> (req_method request = "POST"
       /\ unauthorised (process_env w !! "MCP_WRAPPER_KEY")
                       (req_headers request !! "x-mcp-key") = false
       /\ unconfigured (process_env w) "REDDIT_BRIDGE_URL")
      \/ (exists bridgeUrl body,
            reaches_body w request bridgeUrl
            /\ req_json request = Ok body
            /\ (body = JNull \/ body = JUndefined))
      \/ (exists bridgeUrl body err,
            valid_request rt w request bridgeUrl body
            /\ (fetch_completion rt bridgeUrl (bridge_init rt w body) = Throw err
                \/ exists upstream,
                     fetch_completion rt bridgeUrl (bridge_init rt w body) = Ok upstream
                     /\ up_text upstream = Throw err)).
Proof.
  split.
  - intros H. on_path H; eauto 12.
  - intros [(Hm & Ha & Hu) | [(url & body & Hr & Hj & Hn)
                             | (url & body & err & Hv & Hfault)]];
      eapply (answered_on_path _ _ (json rt _ 500)).
    + apply path_config; assumption.
    + eapply path_nullish; eassumption.
    + eapply path_forward; [exact Hv|].
      destruct Hfault as [Hfetch | (upstream & Hfetch & Htext)].
      * eapply forward_fetch_fault; eassumption.
      * eapply forward_text_fault; eassumption.
Qed.

End Statuses.

(** ** What goes upstream, and what comes back *)

Section Upstream.

Context {number : Type} (rt : Runtime number).

#[local] Abbreviation Value := (JSValue number).

Lemma bridge_headers_names (env : gmap string string) name :
  is_Some (bridge_headers env !! name) ->
  name = "content-type" \/ name = "x-vercel-protection-bypass".
Proof.
  unfold bridge_headers.
  destruct (env !! "REDDIT_BRIDGE_BYPASS_SECRET") as [[|c s]|]; intros [v Hv].
  1, 3: left; destruct (decide (name = "content-type")) as [|Hne]; [assumption|];
        rewrite lookup_singleton_ne in Hv by congruence; discriminate.
  destruct (decide (name = "x-vercel-protection-bypass")) as [|Hne]; [auto|].
  rewrite lookup_insert_ne in Hv by congruence.
  left. destruct (decide (name = "content-type")) as [|Hne']; [assumption|].
  rewrite lookup_singleton_ne in Hv by congruence. discriminate.
Qed.

(** X10: whatever the request, every call the handler adds to the log is a POST
    to the URL of the environment whose only headers are [content-type] and
    [x-vercel-protection-bypass], the latter holding nothing but the bypass
    secret of the environment: no inbound header, [x-mcp-key] included, and
    no wrapper key is ever sent upstream. *)
Theorem upstream_call_shape (w : World) (request : Request number) :
  exists calls,
    outbound (snd (handler rt request w)) = (outbound w ++ calls)%list
    /\ forall call,
         In call calls ->
         process_env w !! "REDDIT_BRIDGE_URL" = Some (call_url call)
         /\ init_method (call_init call) = "POST"
         /\ (forall name,
               is_Some (init_headers (call_init call) !! name) ->
               name = "content-type" \/ name = "x-vercel-protection-bypass")
         /\ init_headers (call_init call) !! "x-mcp-key" = None
         /\ (forall secret,
               init_headers (call_init call) !! "x-vercel-protection-bypass" = Some secret ->
               process_env w !! "REDDIT_BRIDGE_BYPASS_SECRET" = Some secret).
Proof.
  destruct (handler_classified rt w request) as [| | | | | |url body outcome Hv Hf].
  1-6: exists []; cbn [snd]; split; [symmetry; apply app_nil_r | intros call []].
  exists [{| call_url := url; call_init := bridge_init rt w body |}]. split.
  - destruct Hf; reflexivity.
  - intros call [<- | []]. cbn [call_url call_init bridge_init init_method init_headers].
    destruct Hv as ((_ & _ & Hurl & _) & _).
    split; [exact Hurl|]. split; [reflexivity|]. split; [apply bridge_headers_names|].
    split.
    + destruct (bridge_headers (process_env w) !! "x-mcp-key") eqn:Hk; [|reflexivity].
      destruct (bridge_headers_names (process_env w) "x-mcp-key") as [H|H];
        [eauto | discriminate H | discriminate H].
    + intros secret Hs. apply bridge_headers_bypass in Hs. apply Hs.
Qed.

(** X11: a call is made only for a body that parsed to an object with its own
    string properties [subreddit] and [query]: an array, a string, a number
    or a boolean is never forwarded. *)
Theorem forwarded_body_is_object (w : World) (request : Request number) :
  outbound (snd (handler rt request w)) <> outbound w ->
  exists props subreddit query,
    req_json request = Ok (JObj props)
    /\ own_property props "subreddit" = JStr subreddit
    /\ own_property props "query" = JStr query.
Proof.
  intros Hcall.
  destruct (handler_classified rt w request) as [| | | | | |url body outcome Hv Hf];
    try (exfalso; apply Hcall; reflexivity).
  destruct Hv as (_ & Hj & [s Hs] & [q Hq]).
  destruct body as [| | | | | |props|message]; try discriminate Hs.
  exists props, s, q. simpl in Hs, Hq. split; [exact Hj|]. split; congruence.
Qed.

(** X12: when the parsed body has none of [size], [before] and [after], the
    body sent upstream is the object of its two required fields and
    nothing else. *)
Theorem minimal_payload_text (w : World) (request : Request number)
    bridgeUrl body subreddit query :
  valid_request rt w request bridgeUrl body ->
  get rt body K_subreddit = Ok (JStr subreddit) ->
  get rt body K_query = Ok (JStr query) ->
  get rt body K_size = Ok JUndefined ->
  get rt body K_before = Ok JUndefined ->
  get rt body K_after = Ok JUndefined ->
  outbound (snd (handler rt request w))
  = (outbound w
      ++ [{| call_url := bridgeUrl;
             call_init :=
               {| init_method := "POST";
                  init_headers := bridge_headers (process_env w);
                  init_body :=
                    Some ("{" ++ join "," [member "subreddit" (QuoteJSONString subreddit);
                                           member "query" (QuoteJSONString query)]
                          ++ "}")%string |} |}])%list.
Proof.
  intros Hv Hs Hq Hsize Hbefore Hafter.
  assert (Hsent : snd (handler rt request w) = sent rt w bridgeUrl body).
  { destruct (handler_valid rt w request bridgeUrl body Hv); reflexivity. }
  rewrite Hsent. unfold sent, bridge_init, forwarded_payload, payload_props, field.
  cbn [outbound map payload_keys].
  rewrite Hs, Hq, Hsize, Hbefore, Hafter. reflexivity.
Qed.



End Upstream.

(** ** The added properties on the sample deployment *)

Lemma misconfiguration_precedes_body_witness :
  handler sample_runtime
    {| req_method := "POST"; req_headers := ∅;
       req_json := Throw (JError "Unexpected end of JSON input") |}
    (world_of ∅)
  = (Ok (json sample_runtime
           (error_object "Server misconfigured: REDDIT_BRIDGE_URL not set.") 500),
     world_of ∅)
  /\ fst (handler sample_runtime
            {| req_method := "POST"; req_headers := ∅;
               req_json := Throw (JError "Unexpected end of JSON input") |}
            (world_of ∅))
     = Ok {| resp_status := 500;
             resp_headers := {[ "content-type" := "application/json" ]};
             resp_body := JSON_stringify (number_json sample_runtime)
                            (JObj [("error",
                          JStr "Server misconfigured: REDDIT_BRIDGE_URL not set.")]) 2 |}.
Proof.
  apply (misconfiguration_precedes_body sample_runtime).
  - reflexivity.
  - reflexivity.
  - left. reflexivity.
Defined.

Lemma unparseable_body_witness :
  handler sample_runtime
    {| req_method := "POST"; req_headers := ∅;
       req_json := Throw (JError "Unexpected end of JSON input") |}
    (world_of open_env)
  = (Ok (json sample_runtime (error_object "Request body must be valid JSON.") 400),
     world_of open_env)
  /\ fst (handler sample_runtime
            {| req_method := "POST"; req_headers := ∅;
               req_json := Throw (JError "Unexpected end of JSON input") |}
            (world_of open_env))
     = Ok {| resp_status := 400;
             resp_headers := {[ "content-type" := "application/json" ]};
             resp_body := JSON_stringify (number_json sample_runtime)
                            (JObj [("error", JStr "Request body must be valid JSON.")]) 2 |}.
Proof.
  apply (unparseable_body sample_runtime _ _ sample_url
           (JError "Unexpected end of JSON input")).
  - repeat split; vm_compute; congruence.
  - reflexivity.
Defined.

Lemma field_validation_witness :
  handler sample_runtime (post ∅ (JObj [("subreddit", JStr "test"); ("query", JNum 7)]))
    (world_of open_env)
  = (Ok (json sample_runtime
           (error_object "Body must include string fields 'subreddit' and 'query'.") 400),
     world_of open_env)
  /\ fst (handler sample_runtime
            (post ∅ (JObj [("subreddit", JStr "test"); ("query", JNum 7)]))
            (world_of open_env))
     = Ok {| resp_status := 400;
             resp_headers := {[ "content-type" := "application/json" ]};
             resp_body := JSON_stringify (number_json sample_runtime)
                            (JObj [("error",
                          JStr "Body must include string fields 'subreddit' and 'query'.")]) 2 |}.
Proof.
  apply (field_validation sample_runtime _ _ sample_url
           (JObj [("subreddit", JStr "test"); ("query", JNum 7)])).
  - repeat split; vm_compute; congruence.
  - reflexivity.
  - discriminate.
  - discriminate.
  - right. vm_compute. discriminate.
Defined.

Lemma forwarded_body_is_object_witness :
  exists props subreddit query,
    req_json (post ∅ sample_body_extra) = Ok (JObj props)
    /\ own_property props "subreddit" = JStr subreddit
    /\ own_property props "query" = JStr query.
Proof.
  apply (forwarded_body_is_object sample_runtime (world_of open_env)
           (post ∅ sample_body_extra)).
  vm_compute. discriminate.
Defined.

Lemma minimal_payload_text_witness :
  outbound (snd (handler sample_runtime (post ∅ sample_body) (world_of open_env)))
  = ([] ++ [{| call_url := sample_url;
               call_init :=
                 {| init_method := "POST";
                    init_headers := bridge_headers open_env;
                    init_body :=
                      Some ("{" ++ join "," [member "subreddit" (QuoteJSONString "test");
                                             member "query" (QuoteJSONString "foo")]
                            ++ "}")%string |} |}])%list.
Proof.
  apply (minimal_payload_text sample_runtime (world_of open_env) (post ∅ sample_body)
           sample_url sample_body "test" "foo" sample_valid);
    reflexivity.
Defined.

